(** * zato-cache: the packaging script [code/zato-cache/setup.py]

    A shallow embedding of the module body of [setup.py] (Python 2.7) and of
    the library calls it makes, followed by the properties of the script.

    The script is straight-line code: three imports, the computation of the
    path of the version file with [os.path], [execfile] of that file into a
    fresh dictionary, the lookup of ['version'] in it, and one call of
    [setuptools.setup] whose keyword arguments are literals apart from
    [version] and [packages = find_packages('src')].

    What the script calls is not part of the repository: [Str], [posixpath],
    [execfile] and [setuptools.find_packages] below follow Python 2.7's
    [str] methods and [posixpath.py], the builtin, and setuptools'
    [PackageFinder]; what [setuptools.setup] does with its arguments is a
    parameter of the run. A Python file is taken as what running it does to
    the dictionary it is run in; the [__builtins__] entry that [execfile]
    adds to that dictionary is left out, the script reads ['version']
    only. *)

From Stdlib Require Import ZArith String Ascii List Bool Lia.
From stdpp Require Import base option strings gmap.

Set Warnings "-register-all".

Local Open Scope string_scope.
Local Open Scope Z_scope.

(** ** Python strings *)

Module Str.

(** [s.startswith(p)] *)
Definition startswith (s p : string) : bool := String.prefix p s.

(** [s.endswith(p)] *)
Fixpoint endswith (s p : string) : bool :=
  String.eqb s p
  || match s with
     | EmptyString => false
     | String _ s' => endswith s' p
     end.

(** [s.split(sep)] for a one-character separator: never the empty list,
    [''.split('/') == ['']]. *)
Fixpoint split (sep : ascii) (s : string) : list string :=
  match s with
  | EmptyString => [EmptyString]
  | String c s' =>
      if Ascii.eqb c sep then EmptyString :: split sep s'
      else match split sep s' with
           | h :: t => String c h :: t
           | [] => [String c EmptyString]
           end
  end.

(** [sep.join(l)] *)
Definition join (sep : string) (l : list string) : string :=
  String.concat sep l.

(** [s.rfind(c)]: the index of the last occurrence of [c], or [-1]. *)
Fixpoint rfind (c : ascii) (s : string) : Z :=
  match s with
  | EmptyString => -1
  | String a s' =>
      let r := rfind c s' in
      if 0 <=? r then r + 1 else if Ascii.eqb a c then 0 else -1
  end.

(** [s[:i]] for [0 <= i]. *)
Definition slice_to (i : Z) (s : string) : string :=
  String.substring 0 (Z.to_nat i) s.

(** [s.rstrip(c)] *)
Fixpoint rstrip (c : ascii) (s : string) : string :=
  match s with
  | EmptyString => EmptyString
  | String a s' =>
      match rstrip c s' with
      | EmptyString => if Ascii.eqb a c then EmptyString else String a EmptyString
      | r => String a r
      end
  end.

(** [c * n] *)
Fixpoint repeat_char (c : ascii) (n : nat) : string :=
  match n with
  | O => EmptyString
  | S n' => String c (repeat_char c n')
  end.

(** [c in s] *)
Fixpoint contains (c : ascii) (s : string) : bool :=
  match s with
  | EmptyString => false
  | String a s' => Ascii.eqb a c || contains c s'
  end.

End Str.

(** ** [posixpath] (the [os.path] of the platforms Zato runs on) *)

Module posixpath.

Definition slash : ascii := "/"%char.

(** [isabs(s)]: [s.startswith('/')] *)
Definition isabs (s : string) : bool := Str.startswith s "/".

(** One round of the loop of [join(a, *p)]. *)
Definition join_step (path b : string) : string :=
  if Str.startswith b "/" then b
  else if String.eqb path "" || Str.endswith path "/" then path +:+ b
  else path +:+ "/" +:+ b.

(** [join(a, *p)] *)
Definition join (a : string) (p : list string) : string :=
  fold_left join_step p a.

(** [dirname(p)]:
    [i = p.rfind('/') + 1; head = p[:i];
     if head and head != '/'*len(head): head = head.rstrip('/')] *)
Definition dirname (p : string) : string :=
  let i := Str.rfind slash p + 1 in
  let head := Str.slice_to i p in
  if negb (String.eqb head "")
     && negb (String.eqb head (Str.repeat_char slash (String.length head)))
  then Str.rstrip slash head
  else head.

(** The body of the loop of [normpath] over the components; [new_comps]
    grows at its end, as the Python list does. *)
Definition normpath_step (initial_slashes : nat) (new_comps : list string)
    (comp : string) : list string :=
  if String.eqb comp "" || String.eqb comp "." then new_comps
  else if negb (String.eqb comp "..")
          || (Nat.eqb initial_slashes 0 && bool_decide (new_comps = []))
          || match last new_comps with
             | Some l => String.eqb l ".."
             | None => false
             end
       then app new_comps [comp]
       else match new_comps with
            | [] => new_comps
            | _ => removelast new_comps
            end.

(** [normpath(path)] *)
Definition normpath (path : string) : string :=
  if String.eqb path "" then "."
  else
    let initial_slashes : nat :=
      if Str.startswith path "/" then
        if Str.startswith path "//" && negb (Str.startswith path "///")
        then 2%nat else 1%nat
      else 0%nat in
    let comps := Str.split slash path in
    let new_comps := fold_left (normpath_step initial_slashes) comps [] in
    let path := Str.join "/" new_comps in
    let path := Str.repeat_char slash initial_slashes +:+ path in
    if String.eqb path "" then "." else path.

(** [abspath(path)], with [cwd] the value of [os.getcwd()]. *)
Definition abspath (cwd path : string) : string :=
  normpath (if isabs path then path else join cwd [path]).

End posixpath.


(** ** Python values, exceptions and namespaces *)

Module Py.

(** The values that occur as keyword arguments of [setup] and in the
    namespace a version file leaves behind. *)
Inductive value : Type :=
| VNone
| VBool (b : bool)
| VInt (n : Z)
| VStr (s : string)
| VList (l : list value)
| VDict (items : list (value * value)).

Inductive exn : Type :=
| IOError (errno : Z) (filename : string)
| KeyError (key : string)
| ImportError (name : string)
| SystemExit (code : value)
| OtherError (type : string) (msg : string).

Definition ENOENT : Z := 2.
Definition EACCES : Z := 13.
Definition ENOTDIR : Z := 20.
Definition EISDIR : Z := 21.

(** A dictionary with string keys: [_locals], and the keyword arguments
    of a call. *)
Abbreviation namespace := (gmap string value).

(** What running the code of a Python file in a given globals dictionary
    does: it raises, or it ends with the dictionary updated. *)
Definition pymodule : Type := namespace -> exn + namespace.

(** Module bodies made of assignments of constants and [raise]. *)
Inductive stmt : Type :=
| Assign (target : string) (v : value)
| Raise (e : exn).

Fixpoint exec_body (b : list stmt) (g : namespace) : exn + namespace :=
  match b with
  | [] => inr g
  | Assign x v :: b' => exec_body b' (<[x := v]> g)
  | Raise e :: _ => inl e
  end.

(** The status with which the interpreter ends when the module body ends
    with [r]: 0 at the end of the script and for [SystemExit(None)]; for
    [SystemExit] with a Python 2 [int] (a C [long], 64 bits here; [bool]
    is a subclass, [False] is 0 and [True] is 1) the system keeps the low
    8 bits of it; and 1 for [SystemExit] with anything else (a [long]
    beyond the range of [int] included), which is printed, and for every
    other uncaught exception. *)
Definition exit_status (r : exn + unit) : Z :=
  match r with
  | inr _ => 0
  | inl (SystemExit VNone) => 0
  | inl (SystemExit (VBool b)) => if b then 1 else 0
  | inl (SystemExit (VInt n)) =>
      if (- 2 ^ 63 <=? n) && (n <? 2 ^ 63) then Z.land n 255 else 1
  | inl _ => 1
  end.

End Py.
Import Py.

(** ** The file system *)

Module FS.

Inductive node : Type :=
| File (readable : bool) (body : pymodule)
| Dir (entries : list (string * node)).

(** The first entry called [name]. *)
Fixpoint entry (name : string) (es : list (string * node)) : option node :=
  match es with
  | [] => None
  | (n, c) :: es' => if String.eqb n name then Some c else entry name es'
  end.

(** Path resolution over the components of a path: [up] holds the
    ancestors of [cur], the nearest first; the root is its own parent. *)
Fixpoint walk (up : list node) (cur : node) (comps : list string) : Z + node :=
  match comps with
  | [] => inr cur
  | c :: comps' =>
      match cur with
      | File _ _ => inl ENOTDIR
      | Dir es =>
          if String.eqb c "" || String.eqb c "." then walk up cur comps'
          else if String.eqb c ".." then
            match up with
            | [] => walk [] cur comps'
            | p :: up' => walk up' p comps'
            end
          else
            match entry c es with
            | None => inl ENOENT
            | Some n => walk (cur :: up) n comps'
            end
      end
  end.

(** The node a path names for a process whose working directory is
    [cwd] (an absolute path), or the [errno] of the failed lookup. *)
Definition resolve (root : node) (cwd path : string) : Z + node :=
  walk [] root
    (Str.split posixpath.slash
       (if posixpath.isabs path then path else cwd +:+ "/" +:+ path)).

(** [os.path.isfile(path)] for the entry [name] of a directory. *)
Definition isfile (name : string) (es : list (string * node)) : bool :=
  match entry name es with
  | Some (File _ _) => true
  | _ => false
  end.

End FS.
Import FS.

(** ** The interpreter's side of a run *)

(** Everything a run of the script depends on. *)
Record World : Type := {
  (** [__file__]: the path the script was started with *)
  w_file : string;
  (** [os.getcwd()], an absolute path *)
  w_cwd : string;
  (** the root directory *)
  w_fs : node;
  (** the modules [import] finds, by dotted name *)
  w_modules : list string;
  (** [sys.argv[1:]], which only [setuptools.setup] reads *)
  w_argv : list string;
  (** what the call of [setuptools.setup] does in this run, given
      [sys.argv[1:]] and the keyword arguments: it returns, or it raises
      (its command-line and build errors leave as [SystemExit]) *)
  w_setup : list string -> namespace -> exn + unit;
}.

(** [execfile(path, globals)] (Python 2 builtin): opens and reads the file,
    then runs its code in [globals]. *)
Definition execfile (w : World) (path : string) (globals : namespace)
    : exn + namespace :=
  match resolve (w_fs w) (w_cwd w) path with
  | inl errno => inl (IOError errno path)
  | inr (Dir _) => inl (IOError EISDIR path)
  | inr (File false _) => inl (IOError EACCES path)
  | inr (File true body) => body globals
  end.

(** [d[key]] *)
Definition getitem (d : namespace) (key : string) : exn + value :=
  match d !! key with
  | Some v => inr v
  | None => inl (KeyError key)
  end.

(** ** [setuptools.find_packages] *)

Module setuptools.

(** [PackageFinder._looks_like_package]: the directory has a file
    [__init__.py]. *)
Definition looks_like_package (n : node) : bool :=
  match n with
  | Dir es => isfile "__init__.py" es
  | File _ _ => false
  end.

(** The directories [_find_packages_iter] keeps: those without a dot in
    their name that look like a package. *)
Definition kept (d : string) (n : node) : bool :=
  negb (Str.contains "."%char d) && looks_like_package n.

(** The default [exclude] filter, [_build_filter('ez_setup',
    '*__pycache__')]; the default [include] filter ['*'] takes every
    name. *)
Definition excluded (package : string) : bool :=
  String.eqb package "ez_setup" || Str.endswith package "__pycache__".

(** [_find_packages_iter] over [os.walk], top down: the packages among
    the sub-directories of a directory are yielded first, then the walk
    goes into each kept sub-directory in turn. [prefix] is the dotted
    name of the directory, followed by a dot ([""] at the top). *)
Fixpoint find_under (prefix : string) (n : node) {struct n} : list string :=
  match n with
  | File _ _ => []
  | Dir es =>
      app
        (map (fun e => prefix +:+ fst e)
           (filter (fun e => kept (fst e) (snd e)
                             && negb (excluded (prefix +:+ fst e))) es))
        ((fix descend (es : list (string * node)) : list string :=
            match es with
            | [] => []
            | (d, c) :: es' =>
                app (if kept d c then find_under (prefix +:+ d +:+ ".") c
                     else [])
                    (descend es')
            end) es)
  end.

(** [find_packages(where)]: [os.walk] of a directory that cannot be
    listed yields nothing. *)
Definition find_packages (w : World) (where_ : string) : list string :=
  match resolve (w_fs w) (w_cwd w) where_ with
  | inr n => find_under "" n
  | inl _ => []
  end.

End setuptools.

(** ** Runs: the calls a module body makes, and how it ends *)

(** The callables the script binds: the builtin [execfile] and the four
    names it imports from [setuptools] and [Cython.Build]. *)
Inductive callable : Type :=
| Fn_execfile
| Fn_find_packages
| Fn_setup
| Fn_Extension
| Fn_cythonize.

(** A call with its positional and keyword arguments. *)
Inductive event : Type :=
| Call (f : callable) (args : list value) (kwargs : namespace).

(** A computation logs the calls it makes and raises or returns. *)
Module Run.

Definition M (A : Type) : Type := list event * (exn + A).

Definition ret {A} (a : A) : M A := ([], inr a).

Definition raise {A} (e : exn) : M A := ([], inl e).

(** An operation that makes no call: it raises or returns. *)
Definition lift {A} (r : exn + A) : M A := ([], r).

Definition bind {A B} (m : M A) (k : A -> M B) : M B :=
  match m with
  | (t, inl e) => (t, inl e)
  | (t, inr a) => let '(t', r) := k a in (app t t', r)
  end.

(** A call whose outcome is [r]. *)
Definition call {A} (f : callable) (args : list value) (kwargs : namespace)
    (r : exn + A) : M A :=
  ([Call f args kwargs], r).

Definition trace {A} (m : M A) : list event := fst m.
Definition result {A} (m : M A) : exn + A := snd m.

End Run.
Import Run.

Notation "x <- m ;; k" := (bind m (fun x => k))
  (at level 100, m at next level, right associativity).
Notation "m ;;; k" := (bind m (fun _ => k))
  (at level 100, right associativity).

(** ** The script *)

(** [import m] and [from m import ...] of a module that is not part of
    the standard library. *)
Definition import_ (w : World) (m : string) : M unit :=
  if bool_decide (m ∈ w_modules w) then ret tt else raise (ImportError m).

(** Lines 12 to 14. [os] is part of the standard library, and the
    [__future__] import of line 9 is a directive to the compiler. *)
Definition imports (w : World) : M unit :=
  import_ w "setuptools" ;;;
  import_ w "Cython.Build".

(** Line 16 *)
Definition curdir (w : World) : string :=
  posixpath.dirname (posixpath.abspath (w_cwd w) (w_file w)).

(** Line 17 *)
Definition _version_py (w : World) : string :=
  posixpath.normpath (posixpath.join (curdir w) [".."; ".version.py"]).

(** Lines 18 to 20: [_locals] starts empty, [execfile] fills it. *)
Definition version (w : World) : M value :=
  _locals <- call Fn_execfile [VStr (_version_py w); VDict []] ∅
               (execfile w (_version_py w) ∅) ;;
  lift (getitem _locals "version").

(** The keyword arguments of the call of lines 22 to 35. *)
Definition setup_kwargs (version : value) (packages : list string) : namespace :=
  <["name" := VStr "zato-cache"]>
  (<["version" := version]>
  (<["author" := VStr "Zato Source s.r.o."]>
  (<["author_email" := VStr "info@zato.io"]>
  (<["url" := VStr "https://zato.io"]>
  (<["package_dir" := VDict [(VStr "", VStr "src")]]>
  (<["packages" := VList (map VStr packages)]>
  (<["namespace_packages" := VList [VStr "zato"]]>
  (<["zip_safe" := VBool false]> ∅)))))))).

(** Lines 22 to 35: the arguments are evaluated in the order they are
    written, then [setup] is called. *)
Definition setup (w : World) (version : value) : M unit :=
  packages <- call Fn_find_packages [VStr "src"] ∅
                (inr (setuptools.find_packages w "src")) ;;
  let kwargs := setup_kwargs version packages in
  call Fn_setup [] kwargs (w_setup w (w_argv w) kwargs).

(** The module body. *)
Definition setup_py (w : World) : M unit :=
  imports w ;;;
  version <- version w ;;
  setup w version.

(** The keyword arguments of the last call of [setup] in a trace: the
    package metadata the run registered. *)
Definition registered (t : list event) : option namespace :=
  last (omap (fun ev => match ev with
                        | Call Fn_setup _ kw => Some kw
                        | _ => None
                        end) t).

(** ** The vocabulary of the specification *)

(** Both third-party imports succeed. *)
Definition imports_ok (w : World) : bool :=
  bool_decide ("setuptools" ∈ w_modules w)
  && bool_decide ("Cython.Build" ∈ w_modules w).

(** The module whose import fails first. *)
Definition missing_module (w : World) : string :=
  if bool_decide ("setuptools" ∈ w_modules w) then "Cython.Build"
  else "setuptools".

(** What there is at the path of the version file: nothing ([missing],
    with the [errno] of the lookup), something that cannot be read as a
    file, a file whose code raises, a file that leaves [version] unbound,
    or a file that binds [version]. *)
Inductive vf_status : Type :=
| VF_missing (errno : Z)
| VF_unreadable (errno : Z)
| VF_raises (e : exn)
| VF_unbound
| VF_defines (v : value).

Definition version_file (w : World) : vf_status :=
  match resolve (w_fs w) (w_cwd w) (_version_py w) with
  | inl errno => VF_missing errno
  | inr (Dir _) => VF_unreadable EISDIR
  | inr (File false _) => VF_unreadable EACCES
  | inr (File true body) =>
      match body ∅ with
      | inl e => VF_raises e
      | inr g =>
          match g !! "version" with
          | Some v => VF_defines v
          | None => VF_unbound
          end
      end
  end.

Definition vf_defines (s : vf_status) : bool :=
  match s with
  | VF_defines _ => true
  | _ => false
  end.

(** The three calls of a complete run. *)
Definition ev_execfile (w : World) : event :=
  Call Fn_execfile [VStr (_version_py w); VDict []] ∅.

Definition ev_find_packages : event :=
  Call Fn_find_packages [VStr "src"] ∅.

Definition ev_setup (kwargs : namespace) : event :=
  Call Fn_setup [] kwargs.

(** The metadata of a run whose version file binds [version] to [v]. *)
Definition metadata (w : World) (v : value) : namespace :=
  setup_kwargs v (setuptools.find_packages w "src").

Definition callee (ev : event) : callable :=
  match ev with
  | Call f _ _ => f
  end.


(** The run ends with an uncaught exception. *)
Definition fails (w : World) : Prop :=
  exists e, result (setup_py w) = inl e.

(** The same run started from another working directory, or with other
    command-line arguments. *)
Definition with_cwd (w : World) (cwd : string) : World :=
  {| w_file := w_file w; w_cwd := cwd; w_fs := w_fs w;
     w_modules := w_modules w; w_argv := w_argv w; w_setup := w_setup w |}.


(** Directories below a directory: [subdir n names c] when following
    [names] from [n], one entry at a time, ends at [c]. *)
Inductive subdir : node -> list string -> node -> Prop :=
| subdir_one es d c :
    In (d, c) es -> subdir (Dir es) [d] c
| subdir_cons es d c names c' :
    In (d, c) es -> subdir c names c' -> subdir (Dir es) (d :: names) c'.

(** Path components that [normpath] leaves alone. *)
Definition clean (c : string) : Prop :=
  c <> "" /\ c <> "." /\ c <> ".." /\ Str.contains posixpath.slash c = false.

(** The absolute path with the given components. *)
Definition of_comps (cs : list string) : string :=
  "/" +:+ Str.join "/" cs.

(** Chains of package directories: [pkg_chain n names c] when following
    [names] from [n], one entry at a time, goes through directories that
    [find_packages] keeps (no dot in the name, an [__init__.py] inside) and
    ends at [c]. *)
Inductive pkg_chain : node -> list string -> node -> Prop :=
| pkg_chain_one es d c :
    In (d, c) es -> setuptools.kept d c = true ->
    pkg_chain (Dir es) [d] c
| pkg_chain_cons es d c names c' :
    In (d, c) es -> setuptools.kept d c = true ->
    pkg_chain c names c' ->
    pkg_chain (Dir es) (d :: names) c'.

(** ** Sample worlds *)

Module Sample.

Definition init_py : node := File true (exec_body []).

Definition version_py (v : value) : node :=
  File true (exec_body [Assign "version" v]).

(** [/opt/zato/code/zato-cache] with its [src] tree, and what is given
    as [version_file] next to it in [/opt/zato/code]; an empty [/tmp]. *)
Definition tree (version_file : list (string * node)) : node :=
  Dir [("opt", Dir [("zato", Dir [("code", Dir (app version_file
    [("zato-cache", Dir [
        ("setup.py", File true (exec_body []));
        ("src", Dir [
           ("zato", Dir [
              ("__init__.py", init_py);
              ("cache", Dir [("__init__.py", init_py)]);
              ("docs", Dir [])]);
           ("zato_cache.egg-info", Dir [("PKG-INFO", init_py)])])])]))])]);
       ("tmp", Dir [])].

(** A build tool that accepts every request. *)
Definition setup_ok : list string -> namespace -> exn + unit :=
  fun _ _ => inr tt.

(** [python setup.py install], run in the directory of the script. *)
Definition world (version_file : list (string * node)) : World :=
  {| w_file := "setup.py";
     w_cwd := "/opt/zato/code/zato-cache";
     w_fs := tree version_file;
     w_modules := ["setuptools"; "Cython.Build"];
     w_argv := ["install"];
     w_setup := setup_ok |}.

(** The version file of the specification's example. *)
Definition w321 : World :=
  world [(".version.py", version_py (VStr "3.2.1"))].

(** The same tree without a version file. *)
Definition w_no_version_file : World := world [].

(** A version file that binds another name. *)
Definition w_unbound : World :=
  world [(".version.py", File true (exec_body [Assign "release" (VStr "3.2.1")]))].

(** A version file bound to the empty string, and one to a number. *)
Definition w_empty : World := world [(".version.py", version_py (VStr ""))].
Definition w_int : World := world [(".version.py", version_py (VInt 3))].

(** The example's tree on a machine without Cython. *)
Definition w_no_cython : World :=
  {| w_file := "setup.py";
     w_cwd := "/opt/zato/code/zato-cache";
     w_fs := tree [(".version.py", version_py (VStr "3.2.1"))];
     w_modules := ["setuptools"];
     w_argv := ["install"];
     w_setup := setup_ok |}.

(** [python /opt/zato/code/zato-cache/setup.py install]: the script is
    named by its absolute path. *)
Definition w_abs : World :=
  {| w_file := "/opt/zato/code/zato-cache/setup.py";
     w_cwd := "/opt/zato/code/zato-cache";
     w_fs := tree [(".version.py", version_py (VStr "3.2.1"))];
     w_modules := ["setuptools"; "Cython.Build"];
     w_argv := ["install"];
     w_setup := setup_ok |}.

(** A version file that binds [version] and leaves with [sys.exit(0)]. *)
Definition w_exit0 : World :=
  world [(".version.py",
          File true (exec_body [Assign "version" (VStr "3.2.1");
                                Raise (SystemExit (VInt 0))]))].

(** A build tool that refuses an empty version, as the version parser of
    setuptools does where it is strict. *)
Definition setup_strict : list string -> namespace -> exn + unit :=
  fun _ kwargs =>
    match kwargs !! "version" with
    | Some (VStr "") => inl (OtherError "InvalidVersion" "Invalid version: ''")
    | _ => inr tt
    end.

(** The example's tree with [version = ''], built with that tool. *)
Definition w_empty_strict : World :=
  {| w_file := "setup.py";
     w_cwd := "/opt/zato/code/zato-cache";
     w_fs := tree [(".version.py", version_py (VStr ""))];
     w_modules := ["setuptools"; "Cython.Build"];
     w_argv := ["install"];
     w_setup := setup_strict |}.

End Sample.

(** * Properties *)

(** ** The model on examples *)

Example normpath_examples :
  posixpath.normpath "/a/b/../.version.py" = "/a/.version.py"
  /\ posixpath.normpath "//a//b/./c/.." = "//a/b"
  /\ posixpath.normpath "///a" = "/a"
  /\ posixpath.normpath "../../a" = "../../a"
  /\ posixpath.normpath "/../a" = "/a"
  /\ posixpath.normpath "a/.." = ".".
Proof. repeat split; reflexivity. Qed.

Example dirname_examples :
  posixpath.dirname "/a/b/setup.py" = "/a/b"
  /\ posixpath.dirname "/setup.py" = "/"
  /\ posixpath.dirname "setup.py" = ""
  /\ posixpath.dirname "/a//setup.py" = "/a"
  /\ posixpath.dirname "//setup.py" = "//".
Proof. repeat split; reflexivity. Qed.

Example join_examples :
  posixpath.join "/a/b" [".."; ".version.py"] = "/a/b/../.version.py"
  /\ posixpath.join "/" [".."; ".version.py"] = "/../.version.py"
  /\ posixpath.join "" [".."; ".version.py"] = "../.version.py"
  /\ posixpath.join "/a" ["/b"] = "/b".
Proof. repeat split; reflexivity. Qed.

Example sample_version_py :
  _version_py Sample.w321 = "/opt/zato/code/.version.py"
  /\ _version_py Sample.w_abs = "/opt/zato/code/.version.py".
Proof. split; reflexivity. Qed.

Example sample_find_packages :
  setuptools.find_packages Sample.w321 "src" = ["zato"; "zato.cache"].
Proof. reflexivity. Qed.

Example sample_run :
  setup_py Sample.w321
  = ([ev_execfile Sample.w321; ev_find_packages;
      ev_setup (setup_kwargs (VStr "3.2.1") ["zato"; "zato.cache"])],
     inr tt).
Proof. vm_compute. reflexivity. Qed.

(** ** The shape of every run *)

(** The run of the script, by cases on the imports and on the version
    file. *)
Lemma setup_py_run (w : World) :
  setup_py w =
    if imports_ok w then
      match version_file w with
      | VF_missing n | VF_unreadable n =>
          ([ev_execfile w], inl (IOError n (_version_py w)))
      | VF_raises e => ([ev_execfile w], inl e)
      | VF_unbound => ([ev_execfile w], inl (KeyError "version"))
      | VF_defines v =>
          ([ev_execfile w; ev_find_packages; ev_setup (metadata w v)],
           w_setup w (w_argv w) (metadata w v))
      end
    else ([], inl (ImportError (missing_module w))).
Proof.
  unfold setup_py, imports, import_, imports_ok, missing_module.
  destruct (bool_decide ("setuptools" ∈ w_modules w));
    destruct (bool_decide ("Cython.Build" ∈ w_modules w));
    simpl; try reflexivity.
  unfold version_file, version, execfile, ev_execfile.
  destruct (resolve (w_fs w) (w_cwd w) (_version_py w)) as [n|[[] body|es]];
    simpl; try reflexivity.
  destruct (body ∅) as [e|g]; simpl; try reflexivity.
  unfold getitem.
  destruct (g !! "version"); reflexivity.
Qed.

(** Metadata is registered exactly when the imports succeed and the
    version file binds [version]; it is then [metadata w v]. *)
Lemma registered_run (w : World) :
  registered (trace (setup_py w)) =
    if imports_ok w then
      match version_file w with
      | VF_defines v => Some (metadata w v)
      | _ => None
      end
    else None.
Proof.
  rewrite setup_py_run.
  destruct (imports_ok w); [|reflexivity].
  destruct (version_file w); reflexivity.
Qed.

Lemma registered_inv (w : World) (m : namespace) :
  registered (trace (setup_py w)) = Some m ->
  imports_ok w = true /\ exists v, version_file w = VF_defines v /\ m = metadata w v.
Proof.
  rewrite registered_run.
  destruct (imports_ok w); [|discriminate].
  destruct (version_file w) as [| | | |v]; try discriminate.
  intros [= <-]. split; [reflexivity|]. exists v. split; reflexivity.
Qed.

Lemma registered_defines (w : World) (v : value) :
  imports_ok w = true -> version_file w = VF_defines v ->
  registered (trace (setup_py w)) = Some (metadata w v).
Proof. intros Hi Hv. rewrite registered_run, Hi, Hv. reflexivity. Qed.

(** Once metadata is registered the run ends as the call of [setup]
    does. *)
Lemma result_registered (w : World) (m : namespace) :
  registered (trace (setup_py w)) = Some m ->
  result (setup_py w) = w_setup w (w_argv w) m.
Proof.
  intros H. destruct (registered_inv w m H) as (Hi & v & Hv & ->).
  rewrite setup_py_run, Hi, Hv. reflexivity.
Qed.



(** The fields of the keyword arguments. *)
Lemma setup_kwargs_fields (v : value) (pk : list string) :
  let m := setup_kwargs v pk in
  m !! "name" = Some (VStr "zato-cache")
  /\ m !! "version" = Some v
  /\ m !! "author" = Some (VStr "Zato Source s.r.o.")
  /\ m !! "author_email" = Some (VStr "info@zato.io")
  /\ m !! "url" = Some (VStr "https://zato.io")
  /\ m !! "package_dir" = Some (VDict [(VStr "", VStr "src")])
  /\ m !! "packages" = Some (VList (map VStr pk))
  /\ m !! "namespace_packages" = Some (VList [VStr "zato"])
  /\ m !! "zip_safe" = Some (VBool false).
Proof. repeat split; reflexivity. Qed.

Lemma setup_kwargs_dom (v : value) (pk : list string) :
  dom (setup_kwargs v pk)
  = list_to_set ["name"; "version"; "author"; "author_email"; "url";
                 "package_dir"; "packages"; "namespace_packages"; "zip_safe"].
Proof. unfold setup_kwargs. rewrite !dom_insert_L, dom_empty_L. set_solver. Qed.

(** ** The version field *)

(** C1: when the version file binds [version] to a value, the metadata the
    script registers has that very value as its [version], and metadata is
    registered as soon as the two imports succeed; for [version = "3.2.1"]
    the field is ["3.2.1"]. *)
Theorem C1_version_verbatim (w : World) (v : value) :
  version_file w = VF_defines v ->
  (forall m, registered (trace (setup_py w)) = Some m ->
     m !! "version" = Some v)
  /\ (imports_ok w = true ->
      exists m, registered (trace (setup_py w)) = Some m).
Proof.
  intros Hv. split.
  - intros m Hm. destruct (registered_inv w m Hm) as (_ & v' & Hv' & ->).
    rewrite Hv in Hv'. injection Hv' as <-. apply setup_kwargs_fields.
  - intros Hi. exists (metadata w v). by apply registered_defines.
Qed.

Lemma C1_version_verbatim_witness :
  version_file Sample.w321 = VF_defines (VStr "3.2.1")
  /\ exists m, registered (trace (setup_py Sample.w321)) = Some m
              /\ m !! "version" = Some (VStr "3.2.1").
Proof.
  split; [reflexivity|].
  destruct (C1_version_verbatim Sample.w321 (VStr "3.2.1") eq_refl)
    as [Hm Hr].
  destruct (Hr eq_refl) as [m Hreg].
  exists m. split; [exact Hreg|exact (Hm m Hreg)].
Defined.

(** ** The declared literals *)

(** C3: the metadata a run registers has the literals of the script as
    its name, namespace packages, author, author email and URL; a run with
    a well-formed version file, the imports succeeding, registers
    metadata. *)
Theorem C3_declared_literals (w : World) :
  (forall m, registered (trace (setup_py w)) = Some m ->
     m !! "name" = Some (VStr "zato-cache")
     /\ m !! "namespace_packages" = Some (VList [VStr "zato"])
     /\ m !! "author" = Some (VStr "Zato Source s.r.o.")
     /\ m !! "author_email" = Some (VStr "info@zato.io")
     /\ m !! "url" = Some (VStr "https://zato.io"))
  /\ (forall v, imports_ok w = true -> version_file w = VF_defines v ->
        exists m, registered (trace (setup_py w)) = Some m).
Proof.
  split.
  - intros m Hm. destruct (registered_inv w m Hm) as (_ & v & _ & ->).
    repeat split; reflexivity.
  - intros v Hi Hv. exists (metadata w v). by apply registered_defines.
Qed.

Lemma C3_declared_literals_witness :
  exists m, registered (trace (setup_py Sample.w321)) = Some m
    /\ m !! "name" = Some (VStr "zato-cache")
    /\ m !! "namespace_packages" = Some (VList [VStr "zato"])
    /\ m !! "author" = Some (VStr "Zato Source s.r.o.")
    /\ m !! "author_email" = Some (VStr "info@zato.io")
    /\ m !! "url" = Some (VStr "https://zato.io").
Proof.
  destruct (C3_declared_literals Sample.w321) as [Hm Hr].
  destruct (Hr (VStr "3.2.1") eq_refl eq_refl) as [m Hreg].
  exists m. split; [exact Hreg|exact (Hm m Hreg)].
Defined.

(** ** Failures *)

(** C2, as stated, fails on a machine without Cython: the version file is
    present, readable and binds [version], and the script ends with the
    [ImportError] of its line 14. *)
Lemma C2_counterexample :
  result (setup_py Sample.w_no_cython) = inl (ImportError "Cython.Build")
  /\ version_file Sample.w_no_cython = VF_defines (VStr "3.2.1")
  /\ ~ (fails Sample.w_no_cython
        <-> vf_defines (version_file Sample.w_no_cython) = false).
Proof.
  split; [reflexivity|]. split; [reflexivity|].
  intros [H _].
  assert (Hf : fails Sample.w_no_cython) by (eexists; reflexivity).
  apply H in Hf. vm_compute in Hf. discriminate Hf.
Qed.

(** C2, amended: the script ends with an exception before it registers
    any metadata exactly when an import fails or the version file is
    missing, unreadable, raises, or leaves [version] unbound; the exception
    is that of the failing step, nothing is caught, and a run that gets
    past these steps ends as the call of [setup] does. *)
Theorem C2_failures_before_setup (w : World) :
  (registered (trace (setup_py w)) = None
   <-> imports_ok w = false \/ vf_defines (version_file w) = false)
  /\ (registered (trace (setup_py w)) = None ->
      exists e,
        result (setup_py w) = inl e
        /\ e = (if imports_ok w then
                  match version_file w with
                  | VF_missing n | VF_unreadable n => IOError n (_version_py w)
                  | VF_raises e' => e'
                  | _ => KeyError "version"
                  end
                else ImportError (missing_module w)))
  /\ (forall m, registered (trace (setup_py w)) = Some m ->
        result (setup_py w) = w_setup w (w_argv w) m).
Proof.
  split; [|split].
  - rewrite registered_run.
    destruct (imports_ok w); [|intuition].
    destruct (version_file w); simpl; intuition discriminate.
  - rewrite registered_run, setup_py_run.
    destruct (imports_ok w); [|intros _; eexists; split; reflexivity].
    destruct (version_file w); try discriminate;
      intros _; eexists; split; reflexivity.
  - apply result_registered.
Qed.

Lemma C2_failures_before_setup_witness :
  result (setup_py Sample.w_no_version_file)
  = inl (IOError ENOENT "/opt/zato/code/.version.py").
Proof.
  destruct (C2_failures_before_setup Sample.w_no_version_file) as (_ & H & _).
  destruct (H eq_refl) as (e & -> & ->). reflexivity.
Defined.

(** ** Exit status *)




(** ** Validation of the version value *)

(** C9, as stated, fails in two ways: on a machine without Cython the
    version file binds [version] and the script ends with [ImportError];
    and with [version = ''] and a build tool that refuses an empty
    version, the value reaches [setup] as it is and the run ends with the
    tool's exception, with status 1. *)
Lemma C9_counterexample :
  (version_file Sample.w_no_cython = VF_defines (VStr "3.2.1")
   /\ result (setup_py Sample.w_no_cython) = inl (ImportError "Cython.Build")
   /\ registered (trace (setup_py Sample.w_no_cython)) = None)
  /\ (imports_ok Sample.w_empty_strict = true
      /\ version_file Sample.w_empty_strict = VF_defines (VStr "")
      /\ (exists m, registered (trace (setup_py Sample.w_empty_strict)) = Some m
                    /\ m !! "version" = Some (VStr ""))
      /\ result (setup_py Sample.w_empty_strict)
         = inl (OtherError "InvalidVersion" "Invalid version: ''")
      /\ exit_status (result (setup_py Sample.w_empty_strict)) = 1).
Proof.
  split.
  - repeat split; vm_compute; reflexivity.
  - split; [reflexivity|]. split; [reflexivity|]. split.
    + eexists. split; vm_compute; reflexivity.
    + split; vm_compute; reflexivity.
Qed.

(** C9, amended: the script itself applies no validation to the value
    bound to [version]: once the imports have succeeded, whatever the
    value is, the empty string or a number included, the run raises
    nothing before [setup], registers that value as it is and ends as the
    call of [setup] does; when the file ends without binding [version],
    the lookup raises [KeyError] and nothing is registered. *)
Theorem C9_no_validation (w : World) :
  imports_ok w = true ->
  (forall v, version_file w = VF_defines v ->
     registered (trace (setup_py w)) = Some (metadata w v)
     /\ metadata w v !! "version" = Some v
     /\ result (setup_py w) = w_setup w (w_argv w) (metadata w v))
  /\ (version_file w = VF_unbound ->
      result (setup_py w) = inl (KeyError "version")
      /\ registered (trace (setup_py w)) = None).
Proof.
  intros Hi. split.
  - intros v Hv. rewrite setup_py_run, Hi, Hv.
    repeat split; reflexivity.
  - intros Hv. rewrite setup_py_run, Hi, Hv. split; reflexivity.
Qed.

Lemma C9_no_validation_witness :
  (exists m, registered (trace (setup_py Sample.w_empty)) = Some m
             /\ m !! "version" = Some (VStr "")
             /\ result (setup_py Sample.w_empty) = inr tt)
  /\ (exists m, registered (trace (setup_py Sample.w_int)) = Some m
                /\ m !! "version" = Some (VInt 3)
                /\ result (setup_py Sample.w_int) = inr tt)
  /\ result (setup_py Sample.w_unbound) = inl (KeyError "version").
Proof.
  split; [|split].
  - destruct (C9_no_validation Sample.w_empty eq_refl) as [H _].
    destruct (H (VStr "") eq_refl) as (Hr & Hm & Hs).
    eexists. split; [exact Hr|]. split; [exact Hm|]. exact Hs.
  - destruct (C9_no_validation Sample.w_int eq_refl) as [H _].
    destruct (H (VInt 3) eq_refl) as (Hr & Hm & Hs).
    eexists. split; [exact Hr|]. split; [exact Hm|]. exact Hs.
  - destruct (C9_no_validation Sample.w_unbound eq_refl) as [_ H].
    exact (proj1 (H eq_refl)).
Defined.

(** ** The calls of a run *)

(** C6: a run makes at most three calls, in this order: [execfile] of the
    version file, [find_packages('src')] and [setup]; a run whose imports
    succeed and whose version file binds [version] makes exactly these
    three, and every other run stops after none or one of them. *)
Theorem C6_three_actions (w : World) :
  (exists n, map callee (trace (setup_py w))
             = take n [Fn_execfile; Fn_find_packages; Fn_setup])
  /\ (forall v, imports_ok w = true -> version_file w = VF_defines v ->
        trace (setup_py w)
        = [ev_execfile w; ev_find_packages; ev_setup (metadata w v)]).
Proof.
  split.
  - rewrite setup_py_run.
    destruct (imports_ok w); [|by exists 0%nat].
    destruct (version_file w);
      (by exists 1%nat) || (by exists 3%nat).
  - intros v Hi Hv. rewrite setup_py_run, Hi, Hv. reflexivity.
Qed.

Lemma C6_three_actions_witness :
  trace (setup_py Sample.w321)
  = [ev_execfile Sample.w321; ev_find_packages;
     ev_setup (metadata Sample.w321 (VStr "3.2.1"))].
Proof.
  exact (proj2 (C6_three_actions Sample.w321) (VStr "3.2.1") eq_refl eq_refl).
Defined.

(** ** Extension modules *)

(** C10: no run calls [Extension] or [cythonize]; the keyword arguments of
    [setup] are the nine of the script, so there is no [ext_modules] and no
    [cmdclass] among them, and [zip_safe] is [False]. *)
Theorem C10_no_extension_modules (w : World) :
  (forall ev, In ev (trace (setup_py w)) ->
     callee ev <> Fn_Extension /\ callee ev <> Fn_cythonize)
  /\ (forall m, registered (trace (setup_py w)) = Some m ->
        m !! "ext_modules" = None
        /\ m !! "cmdclass" = None
        /\ m !! "zip_safe" = Some (VBool false)
        /\ dom m = list_to_set
             ["name"; "version"; "author"; "author_email"; "url";
              "package_dir"; "packages"; "namespace_packages"; "zip_safe"]).
Proof.
  split.
  - rewrite setup_py_run.
    destruct (imports_ok w); [|intros ev []].
    destruct (version_file w); simpl; intros ev H;
      repeat (destruct H as [<-|H]; [split; discriminate|]);
      destruct H.
  - intros m H. destruct (registered_inv w m H) as (_ & v & _ & ->).
    unfold metadata.
    split; [reflexivity|]. split; [reflexivity|]. split; [reflexivity|].
    apply setup_kwargs_dom.
Qed.

Lemma C10_no_extension_modules_witness :
  exists m, registered (trace (setup_py Sample.w321)) = Some m
    /\ m !! "ext_modules" = None
    /\ m !! "zip_safe" = Some (VBool false).
Proof.
  exists (metadata Sample.w321 (VStr "3.2.1")).
  destruct (C10_no_extension_modules Sample.w321) as [_ H].
  assert (Hr : registered (trace (setup_py Sample.w321))
               = Some (metadata Sample.w321 (VStr "3.2.1")))
    by (apply registered_defines; reflexivity).
  destruct (H _ Hr) as (He & _ & Hz & _).
  split; [exact Hr|]. split; [exact He | exact Hz].
Defined.

(** ** Package discovery *)

(** Induction on directory trees. *)
Lemma node_tree_ind (P : node -> Prop) :
  (forall r b, P (File r b)) ->
  (forall es, Forall (fun e => P (snd e)) es -> P (Dir es)) ->
  forall n, P n.
Proof.
  intros HF HD. fix IH 1. intros [r b|es].
  - apply HF.
  - apply HD. induction es as [|[d c] es IHes]; constructor.
    + apply IH.
    + apply IHes.
Qed.

Lemma join_dot_cons (d : string) (names : list string) :
  names <> [] ->
  Str.join "." (d :: names) = d +:+ "." +:+ Str.join "." names.
Proof. destruct names; [congruence|reflexivity]. Qed.

Lemma append_cons (x : ascii) (a b : string) :
  String x a +:+ b = String x (a +:+ b).
Proof. reflexivity. Qed.

Lemma append_nil_l (b : string) : "" +:+ b = b.
Proof. reflexivity. Qed.

Lemma append_assoc (a b c : string) : (a +:+ b) +:+ c = a +:+ (b +:+ c).
Proof.
  induction a as [|x a IH]; [reflexivity|].
  rewrite !append_cons. by rewrite IH.
Qed.

Lemma subdir_nonempty (n : node) (names : list string) (c : node) :
  subdir n names c -> names <> [].
Proof. destruct 1; discriminate. Qed.

(** Every name [find_under] yields is the dotted path of a directory
    below the starting one that holds a file [__init__.py]. *)
Lemma find_under_sound (n : node) :
  forall prefix p, In p (setuptools.find_under prefix n) ->
  exists names es,
    subdir n names (Dir es)
    /\ p = prefix +:+ Str.join "." names
    /\ isfile "__init__.py" es = true.
Proof.
  induction n as [r b|es IH] using node_tree_ind; intros prefix p Hin.
  - destruct Hin.
  - simpl in Hin. apply in_app_or in Hin. destruct Hin as [Hin|Hin].
    + apply in_map_iff in Hin. destruct Hin as ([d c] & <- & Hin).
      apply list_elem_of_In, list_elem_of_filter in Hin.
      destruct Hin as [Hk Hin]. apply list_elem_of_In in Hin.
      simpl in Hk. apply Is_true_true, andb_true_iff in Hk.
      destruct Hk as [Hk _].
      unfold setuptools.kept in Hk. apply andb_true_iff in Hk.
      destruct Hk as [_ Hk]. destruct c as [|es']; [discriminate|].
      exists [d], es'. split; [by constructor|]. split; [reflexivity|exact Hk].
    + revert Hin. induction IH as [|[d c] es Hc _ IHes]; [intros []|].
      intros Hin. apply in_app_or in Hin. destruct Hin as [Hin|Hin].
      * destruct (setuptools.kept d c); [|destruct Hin].
        destruct (Hc _ _ Hin) as (names & es' & Hs & -> & Hi).
        exists (d :: names), es'. split.
        { eapply subdir_cons; [left; reflexivity|exact Hs]. }
        split; [|exact Hi].
        rewrite (join_dot_cons d names (subdir_nonempty _ _ _ Hs)).
        by rewrite !append_assoc.
      * destruct (IHes Hin) as (names & es' & Hs & -> & Hi).
        exists names, es'. split; [|split; [reflexivity|exact Hi]].
        inversion Hs; subst.
        { constructor. by right. }
        { eapply subdir_cons; [right; eassumption|assumption]. }
Qed.

(** C5: the [packages] of the registered metadata are the names
    [find_packages('src')] returns, [package_dir] maps the root package to
    [src], and every one of these names is the dotted path of a directory
    below [src] that holds an [__init__.py]; a run with a well-formed
    version file, the imports succeeding, registers metadata. *)
Theorem C5_packages_under_src (w : World) :
  (forall m, registered (trace (setup_py w)) = Some m ->
     m !! "packages"
     = Some (VList (map VStr (setuptools.find_packages w "src")))
     /\ m !! "package_dir" = Some (VDict [(VStr "", VStr "src")])
     /\ forall p, In p (setuptools.find_packages w "src") ->
          exists src names es,
            resolve (w_fs w) (w_cwd w) "src" = inr src
            /\ subdir src names (Dir es)
            /\ p = Str.join "." names
            /\ isfile "__init__.py" es = true)
  /\ (forall v, imports_ok w = true -> version_file w = VF_defines v ->
        exists m, registered (trace (setup_py w)) = Some m).
Proof.
  split.
  - intros m Hm. destruct (registered_inv w m Hm) as (_ & v & _ & ->).
    split; [reflexivity|]. split; [reflexivity|].
    intros p. unfold setuptools.find_packages.
    destruct (resolve (w_fs w) (w_cwd w) "src") as [n|src]; [intros []|].
    intros Hin.
    destruct (find_under_sound src "" p Hin) as (names & es & Hs & -> & He).
    exists src, names, es. repeat split; assumption.
  - intros v Hi Hv. exists (metadata w v). by apply registered_defines.
Qed.

Lemma C5_packages_under_src_witness :
  exists m, registered (trace (setup_py Sample.w321)) = Some m
    /\ m !! "packages" = Some (VList [VStr "zato"; VStr "zato.cache"])
    /\ m !! "package_dir" = Some (VDict [(VStr "", VStr "src")]).
Proof.
  destruct (C5_packages_under_src Sample.w321) as [Hm Hr].
  destruct (Hr (VStr "3.2.1") eq_refl eq_refl) as [m Hreg].
  destruct (Hm m Hreg) as (Hp & Hd & _).
  exists m. split; [exact Hreg|]. split; [|exact Hd].
  rewrite Hp. vm_compute. reflexivity.
Defined.

(** ** The working directory *)

Lemma prefix_nil (s : string) : String.prefix "" s = true.
Proof. destruct s; reflexivity. Qed.

Lemma prefix_cons (a b : ascii) (s1 s2 : string) :
  String.prefix (String a s1) (String b s2)
  = if ascii_dec a b then String.prefix s1 s2 else false.
Proof. reflexivity. Qed.

Lemma isabs_cons (s : string) : posixpath.isabs (String "/" s) = true.
Proof.
  unfold posixpath.isabs, Str.startswith. rewrite prefix_cons.
  destruct (ascii_dec "/" "/"); [apply prefix_nil|congruence].
Qed.

Lemma isabs_inv (s : string) :
  posixpath.isabs s = true -> exists s', s = String "/" s'.
Proof.
  unfold posixpath.isabs, Str.startswith. destruct s as [|a s].
  - discriminate.
  - rewrite prefix_cons.
    destruct (ascii_dec "/" a) as [<-|]; [|discriminate]. by exists s.
Qed.

Lemma isabs_append (a b : string) :
  posixpath.isabs a = true -> posixpath.isabs (a +:+ b) = true.
Proof. intros [a' ->]%isabs_inv. rewrite append_cons. apply isabs_cons. Qed.

Lemma normpath_isabs (p : string) :
  posixpath.isabs p = true -> posixpath.isabs (posixpath.normpath p) = true.
Proof.
  intros H. destruct (isabs_inv p H) as [p' ->].
  unfold posixpath.normpath.
  change (String "/" p' =? "")%string with false. cbv iota.
  change (Str.startswith (String "/" p') "/")
    with (posixpath.isabs (String "/" p')).
  rewrite isabs_cons.
  destruct (Str.startswith (String "/" p') "//"
            && negb (Str.startswith (String "/" p') "///")); apply isabs_cons.
Qed.

(** [rstrip] removes everything only from a string of [c]s, and otherwise
    keeps the first character. *)
Lemma rstrip_cons (c a : ascii) (s : string) :
  Str.rstrip c (String a s) = ""
  \/ exists r, Str.rstrip c (String a s) = String a r.
Proof.
  simpl. destruct (Str.rstrip c s).
  - destruct (Ascii.eqb a c); [by left|right; by eexists].
  - right. by eexists.
Qed.

Lemma rstrip_nil (c : ascii) (s : string) :
  Str.rstrip c s = "" -> s = Str.repeat_char c (String.length s).
Proof.
  induction s as [|a s IH]; [reflexivity|]. simpl.
  destruct (Str.rstrip c s); [|discriminate].
  destruct (Ascii.eqb_spec a c) as [->|]; [|discriminate].
  intros _. by rewrite <- IH.
Qed.

Lemma rfind_cons_nonneg (c a : ascii) (s : string) :
  0 <= Str.rfind c s -> Str.rfind c (String a s) = Str.rfind c s + 1.
Proof. intros H. simpl. destruct (Z.leb_spec 0 (Str.rfind c s)); [reflexivity|lia]. Qed.

Lemma rfind_lower (c : ascii) (s : string) : -1 <= Str.rfind c s.
Proof.
  induction s as [|a s IH]; simpl; [lia|].
  destruct (Z.leb_spec 0 (Str.rfind c s)); [lia|].
  destruct (Ascii.eqb a c); lia.
Qed.

Lemma rfind_head (c : ascii) (s : string) : 0 <= Str.rfind c (String c s).
Proof.
  simpl. pose proof (rfind_lower c s).
  destruct (Z.leb_spec 0 (Str.rfind c s)); [lia|].
  rewrite Ascii.eqb_refl. lia.
Qed.

Lemma dirname_isabs (p : string) :
  posixpath.isabs p = true -> posixpath.isabs (posixpath.dirname p) = true.
Proof.
  intros H. destruct (isabs_inv p H) as [p' ->].
  unfold posixpath.dirname.
  pose proof (rfind_head posixpath.slash p') as Hr.
  fold posixpath.slash.
  set (i := Str.rfind posixpath.slash (String posixpath.slash p') + 1) in *.
  assert (Hh : exists h, Str.slice_to i (String posixpath.slash p')
                         = String posixpath.slash h).
  { unfold Str.slice_to. destruct (Z.to_nat i) as [|n] eqn:E; [lia|].
    simpl. by eexists. }
  destruct Hh as [h ->].
  destruct (negb _ && negb _) eqn:E; [|apply isabs_cons].
  apply andb_true_iff in E. destruct E as [_ E].
  destruct (rstrip_cons posixpath.slash posixpath.slash h) as [Hn|[r ->]];
    [|apply isabs_cons].
  apply rstrip_nil in Hn. rewrite <- Hn in E.
  rewrite String.eqb_refl in E. discriminate.
Qed.

Lemma join_step_isabs (a b : string) :
  posixpath.isabs a = true -> posixpath.isabs (posixpath.join_step a b) = true.
Proof.
  intros H. unfold posixpath.join_step.
  destruct (Str.startswith b "/") eqn:E; [exact E|].
  destruct (_ || _); by apply isabs_append.
Qed.

Lemma version_py_isabs (w : World) :
  posixpath.isabs (curdir w) = true -> posixpath.isabs (_version_py w) = true.
Proof.
  intros H. unfold _version_py. apply normpath_isabs.
  unfold posixpath.join. cbn [fold_left].
  by do 2 apply join_step_isabs.
Qed.

Lemma curdir_isabs (w : World) :
  posixpath.isabs (w_file w) = true -> posixpath.isabs (curdir w) = true.
Proof.
  intros H. unfold curdir, posixpath.abspath. rewrite H.
  by apply dirname_isabs, normpath_isabs.
Qed.

(** The keyword arguments depend on the packages found only in their
    [packages]. *)
Lemma setup_kwargs_frame (v : value) (pk pk' : list string) (k : string) :
  k <> "packages" -> setup_kwargs v pk !! k = setup_kwargs v pk' !! k.
Proof.
  intros Hk. unfold setup_kwargs.
  rewrite !lookup_insert. repeat case_decide; congruence.
Qed.

(** An absolute path names the same node from every working directory. *)
Lemma resolve_isabs (root : node) (cwd cwd' path : string) :
  posixpath.isabs path = true ->
  resolve root cwd path = resolve root cwd' path.
Proof. intros H. unfold resolve. by rewrite H. Qed.

Lemma setup_kwargs_packages (v : value) (pk pk' : list string) :
  setup_kwargs v pk' = <["packages" := VList (map VStr pk')]> (setup_kwargs v pk).
Proof.
  apply map_eq. intros k. destruct (decide (k = "packages")) as [->|Hk].
  - rewrite lookup_insert_eq. reflexivity.
  - rewrite lookup_insert_ne by congruence. by apply setup_kwargs_frame.
Qed.

(** C8, as stated, fails for the script started by its absolute path from
    two working directories: both runs read [/opt/zato/code/.version.py],
    and they register different metadata, since [find_packages('src')]
    looks for [src] in the working directory. *)
Lemma C8_counterexample :
  _version_py (with_cwd Sample.w_abs "/tmp") = _version_py Sample.w_abs
  /\ (exists m, registered (trace (setup_py Sample.w_abs)) = Some m
        /\ m !! "packages" = Some (VList [VStr "zato"; VStr "zato.cache"]))
  /\ (exists m, registered (trace (setup_py (with_cwd Sample.w_abs "/tmp")))
                = Some m
        /\ m !! "packages" = Some (VList []))
  /\ registered (trace (setup_py (with_cwd Sample.w_abs "/tmp")))
     <> registered (trace (setup_py Sample.w_abs)).
Proof.
  split; [vm_compute; reflexivity|].
  split; [eexists; split; vm_compute; reflexivity|].
  split; [eexists; split; vm_compute; reflexivity|].
  intros H.
  assert (Hp := f_equal (fun o : option namespace =>
                           match o with
                           | Some m => m !! "packages"
                           | None => None
                           end) H).
  vm_compute in Hp. discriminate Hp.
Qed.

(** C8, amended: for a script started by its absolute path, the path of
    the version file and what is read there do not depend on the working
    directory; a run from another working directory fails before [setup]
    in the same way, and registers the same metadata except for
    [packages], which is what [find_packages('src')] finds from that
    directory. *)
Theorem C8_cwd_independence (w : World) (cwd : string) :
  posixpath.isabs (w_file w) = true ->
  _version_py (with_cwd w cwd) = _version_py w
  /\ version_file (with_cwd w cwd) = version_file w
  /\ registered (trace (setup_py (with_cwd w cwd)))
     = (fun m => <["packages" :=
                    VList (map VStr (setuptools.find_packages
                                       (with_cwd w cwd) "src"))]> m)
       <$> registered (trace (setup_py w))
  /\ (registered (trace (setup_py w)) = None ->
      result (setup_py (with_cwd w cwd)) = result (setup_py w)).
Proof.
  intros Habs.
  assert (Hp : _version_py (with_cwd w cwd) = _version_py w).
  { unfold _version_py, curdir, posixpath.abspath. simpl. by rewrite Habs. }
  assert (Hv : version_file (with_cwd w cwd) = version_file w).
  { unfold version_file. rewrite Hp. simpl.
    rewrite (resolve_isabs (w_fs w) cwd (w_cwd w)); [reflexivity|].
    by apply version_py_isabs, curdir_isabs. }
  split; [exact Hp|]. split; [exact Hv|]. split.
  - rewrite !registered_run, Hv.
    change (imports_ok (with_cwd w cwd)) with (imports_ok w).
    destruct (imports_ok w); [|reflexivity].
    destruct (version_file w) as [| | | |v];
      first [reflexivity | simpl; f_equal; apply setup_kwargs_packages].
  - rewrite registered_run, !setup_py_run, Hv, Hp.
    change (imports_ok (with_cwd w cwd)) with (imports_ok w).
    change (missing_module (with_cwd w cwd)) with (missing_module w).
    destruct (imports_ok w); [|reflexivity].
    destruct (version_file w); try reflexivity. discriminate.
Qed.

Lemma C8_cwd_independence_witness :
  _version_py (with_cwd Sample.w_abs "/tmp") = "/opt/zato/code/.version.py"
  /\ version_file (with_cwd Sample.w_abs "/tmp") = VF_defines (VStr "3.2.1").
Proof.
  destruct (C8_cwd_independence Sample.w_abs "/tmp" eq_refl) as (Hp & Hv & _).
  split.
  - rewrite Hp. reflexivity.
  - rewrite Hv. reflexivity.
Defined.

(** ** Splitting and joining paths *)

Lemma split_nonnil (c : ascii) (s : string) : Str.split c s <> [].
Proof.
  destruct s as [|a s]; simpl; [discriminate|].
  destruct (Ascii.eqb a c); [discriminate|].
  destruct (Str.split c s); discriminate.
Qed.

Lemma split_without (c : ascii) (s : string) :
  Str.contains c s = false -> Str.split c s = [s].
Proof.
  induction s as [|a s IH]; [reflexivity|]. simpl.
  intros [Ha Hs]%orb_false_iff. rewrite Ha, (IH Hs). reflexivity.
Qed.

Lemma split_app (c : ascii) (a b : string) :
  Str.split c (a +:+ String c b) = app (Str.split c a) (Str.split c b).
Proof.
  induction a as [|x a IH].
  - rewrite append_nil_l. simpl. rewrite Ascii.eqb_refl. reflexivity.
  - rewrite append_cons. simpl. rewrite IH.
    destruct (Ascii.eqb x c); [reflexivity|].
    pose proof (split_nonnil c a).
    destruct (Str.split c a); [congruence|reflexivity].
Qed.

Lemma join_cons (sep d : string) (ds : list string) :
  ds <> [] -> Str.join sep (d :: ds) = d +:+ sep +:+ Str.join sep ds.
Proof. destruct ds; [congruence|reflexivity]. Qed.

Lemma join_app (sep : string) (l1 l2 : list string) :
  l1 <> [] -> l2 <> [] ->
  Str.join sep (app l1 l2) = Str.join sep l1 +:+ sep +:+ Str.join sep l2.
Proof.
  intros H1 H2. induction l1 as [|d l1 IH]; [congruence|].
  destruct l1 as [|d' l1].
  - simpl app. by rewrite join_cons.
  - change (app (d :: d' :: l1) l2) with (d :: app (d' :: l1) l2).
    rewrite join_cons by discriminate. rewrite IH by discriminate.
    rewrite (join_cons sep d (d' :: l1)) by discriminate.
    by rewrite !append_assoc.
Qed.

Lemma split_join (cs : list string) :
  cs <> [] ->
  Forall (fun c => Str.contains posixpath.slash c = false) cs ->
  Str.split posixpath.slash (Str.join "/" cs) = cs.
Proof.
  intros Hne H. induction H as [|c cs Hc H IH]; [congruence|].
  destruct cs as [|c' cs].
  - by apply split_without.
  - rewrite join_cons by discriminate.
    change ("/" +:+ Str.join "/" (c' :: cs))
      with (String posixpath.slash (Str.join "/" (c' :: cs))).
    rewrite split_app, (split_without _ _ Hc), IH by discriminate.
    reflexivity.
Qed.

Lemma split_of_comps (cs : list string) :
  cs <> [] ->
  Forall (fun c => Str.contains posixpath.slash c = false) cs ->
  Str.split posixpath.slash (of_comps cs) = "" :: cs.
Proof.
  intros Hne H. unfold of_comps.
  change ("/" +:+ Str.join "/" cs)
    with ("" +:+ String posixpath.slash (Str.join "/" cs)).
  rewrite split_app, split_join by assumption. reflexivity.
Qed.

Lemma clean_without (c : string) :
  clean c -> Str.contains posixpath.slash c = false.
Proof. by intros (_ & _ & _ & H). Qed.

Lemma Forall_clean_without (cs : list string) :
  Forall clean cs ->
  Forall (fun c => Str.contains posixpath.slash c = false) cs.
Proof. intros H. eapply Forall_impl; [exact H|exact clean_without]. Qed.

(** [normpath]'s loop keeps clean components. *)
Lemma normpath_step_clean (n : nat) (acc : list string) (c : string) :
  clean c -> posixpath.normpath_step n acc c = app acc [c].
Proof.
  intros (H1 & H2 & H3 & _). unfold posixpath.normpath_step.
  apply String.eqb_neq in H1, H2, H3. rewrite H1, H2, H3. reflexivity.
Qed.

Lemma normpath_fold_clean (n : nat) (cs acc : list string) :
  Forall clean cs ->
  fold_left (posixpath.normpath_step n) cs acc = app acc cs.
Proof.
  intros H. revert acc. induction H as [|c cs Hc H IH]; intros acc.
  - by rewrite app_nil_r.
  - simpl. rewrite normpath_step_clean, IH by assumption.
    by rewrite <- app_assoc.
Qed.

(** [..] after clean components removes the last of them. *)
Lemma normpath_step_up (ds : list string) :
  ds <> [] -> Forall clean ds ->
  posixpath.normpath_step 1 ds ".." = removelast ds.
Proof.
  intros Hne H. unfold posixpath.normpath_step.
  change (".." =? "")%string with false.
  change (".." =? ".")%string with false.
  change (".." =? "..")%string with true.
  change (1 =? 0)%nat with false. simpl orb.
  destruct (last ds) as [l|] eqn:El.
  - assert (Hl : clean l).
    { apply last_Some in El. destruct El as [l' ->].
      apply Forall_app in H. destruct H as [_ H]. by inversion H. }
    destruct Hl as (_ & _ & Hl & _). apply String.eqb_neq in Hl.
    rewrite Hl. destruct ds; [congruence|reflexivity].
  - apply last_None in El. congruence.
Qed.

(** ** [dirname] and [join] on absolute paths *)

Lemma of_comps_cons (cs : list string) :
  of_comps cs = String posixpath.slash (Str.join "/" cs).
Proof. reflexivity. Qed.

Lemma rfind_without (c : ascii) (s : string) :
  Str.contains c s = false -> Str.rfind c s = -1.
Proof.
  induction s as [|a s IH]; [reflexivity|]. simpl.
  intros [Ha Hs]%orb_false_iff. rewrite (IH Hs), Ha. reflexivity.
Qed.

Lemma rfind_app (c : ascii) (x s : string) :
  Str.contains c s = false ->
  Str.rfind c (x +:+ String c s) = Z.of_nat (String.length x).
Proof.
  intros Hs. induction x as [|a x IH].
  - rewrite append_nil_l. simpl. rewrite (rfind_without c s Hs).
    rewrite Ascii.eqb_refl. reflexivity.
  - rewrite append_cons, rfind_cons_nonneg; rewrite IH; simpl String.length; lia.
Qed.

Lemma slice_app (c : ascii) (x s : string) :
  Str.slice_to (Z.of_nat (String.length x) + 1) (x +:+ String c s)
  = x +:+ String c "".
Proof.
  unfold Str.slice_to.
  replace (Z.to_nat (Z.of_nat (String.length x) + 1))
    with (S (String.length x)) by lia.
  induction x as [|a x IH].
  - rewrite !append_nil_l. simpl. by destruct s.
  - rewrite !append_cons. simpl String.length.
    change (substring 0 (S (S (String.length x))) (String a (x +:+ String c s)))
      with (String a (substring 0 (S (String.length x)) (x +:+ String c s))).
    by rewrite IH.
Qed.

Lemma rstrip_snoc (c : ascii) (x : string) :
  Str.rstrip c (x +:+ String c "") = Str.rstrip c x.
Proof.
  induction x as [|a x IH].
  - rewrite append_nil_l. simpl. by rewrite Ascii.eqb_refl.
  - rewrite append_cons. simpl. by rewrite IH.
Qed.

Lemma rstrip_without (c : ascii) (y : string) :
  Str.contains c y = false -> Str.rstrip c y = y.
Proof.
  induction y as [|a y IH]; [reflexivity|]. simpl.
  intros [Ha Hy]%orb_false_iff. rewrite (IH Hy), Ha. by destruct y.
Qed.

Lemma rstrip_app_fix (c : ascii) (x y : string) :
  Str.rstrip c y = y -> y <> "" -> Str.rstrip c (x +:+ y) = x +:+ y.
Proof.
  intros Hy Hne. induction x as [|a x IH]; [exact Hy|].
  rewrite append_cons. simpl. rewrite IH.
  destruct (x +:+ y) eqn:E; [|reflexivity].
  destruct x; [|discriminate E]. rewrite append_nil_l in E. congruence.
Qed.

Lemma rstrip_repeat (c : ascii) (n : nat) :
  Str.rstrip c (Str.repeat_char c n) = "".
Proof.
  induction n as [|n IH]; [reflexivity|]. simpl.
  by rewrite IH, Ascii.eqb_refl.
Qed.

Lemma endswith_fix (x : string) :
  Str.rstrip posixpath.slash x = x -> x <> "" -> Str.endswith x "/" = false.
Proof.
  induction x as [|a x IH]; [congruence|]. intros H _.
  simpl in H. simpl Str.endswith.
  destruct (Str.rstrip posixpath.slash x) as [|b r] eqn:E.
  - destruct (Ascii.eqb_spec a posixpath.slash) as [->|Ha]; [discriminate|].
    injection H as <-. simpl.
    apply Ascii.eqb_neq in Ha. unfold posixpath.slash in Ha.
    rewrite Ha. reflexivity.
  - injection H as H. rewrite IH by congruence.
    rewrite orb_false_r. subst x. by destruct (Ascii.eqb a "/").
Qed.

(** The last of a list of clean components is where the path ends. *)
Lemma of_comps_rstrip (ds : list string) :
  ds <> [] -> Forall clean ds ->
  Str.rstrip posixpath.slash (of_comps ds) = of_comps ds /\ of_comps ds <> "".
Proof.
  intros Hne H. split; [|by rewrite of_comps_cons].
  destruct (last ds) as [l|] eqn:El; [|apply last_None in El; congruence].
  apply last_Some in El. destruct El as [ds' ->].
  apply Forall_app in H. destruct H as [_ H]. inversion H as [|? ? Hl _]; subst.
  destruct Hl as (Hl & _ & _ & Hs).
  assert (Hx : exists x, of_comps (app ds' [l]) = x +:+ l).
  { unfold of_comps. destruct ds' as [|d ds'].
    - by exists "/".
    - exists ("/" +:+ Str.join "/" (d :: ds') +:+ "/").
      rewrite join_app by discriminate. simpl Str.join at 2.
      by rewrite !append_assoc. }
  destruct Hx as [x ->].
  apply rstrip_app_fix; [by apply rstrip_without|assumption].
Qed.

Lemma dirname_app (x s : string) :
  Str.contains posixpath.slash s = false ->
  Str.rstrip posixpath.slash x = x -> x <> "" ->
  posixpath.dirname (x +:+ String posixpath.slash s) = x.
Proof.
  intros Hs Hx Hne. unfold posixpath.dirname.
  rewrite rfind_app, slice_app by assumption.
  assert (Hr : Str.rstrip posixpath.slash (x +:+ String posixpath.slash "") = x)
    by (by rewrite rstrip_snoc).
  destruct (negb _ && negb _) eqn:E; [exact Hr|].
  apply andb_false_iff in E. destruct E as [E|E]; apply negb_false_iff in E;
    apply String.eqb_eq in E.
  - rewrite E in Hr. simpl in Hr. congruence.
  - rewrite E, rstrip_repeat in Hr. congruence.
Qed.

Lemma of_comps_snoc (ds : list string) (s : string) :
  ds <> [] ->
  of_comps (app ds [s]) = of_comps ds +:+ String posixpath.slash s.
Proof.
  intros Hne. unfold of_comps. rewrite join_app by done.
  simpl Str.join at 2. by rewrite !append_assoc.
Qed.

Lemma dirname_of_comps (ds : list string) (script : string) :
  ds <> [] -> Forall clean (app ds [script]) ->
  posixpath.dirname (of_comps (app ds [script])) = of_comps ds.
Proof.
  intros Hne H. apply Forall_app in H. destruct H as [Hd Hs].
  rewrite of_comps_snoc by assumption.
  destruct (of_comps_rstrip ds Hne Hd) as [Hr Hx].
  apply dirname_app; [|assumption..].
  apply clean_without. by inversion Hs.
Qed.

Lemma dirname_of_root (script : string) :
  clean script -> posixpath.dirname (of_comps [script]) = "/".
Proof.
  intros H. apply clean_without in H. unfold posixpath.dirname.
  change (of_comps [script]) with ("" +:+ String posixpath.slash script).
  rewrite rfind_app, slice_app by assumption. reflexivity.
Qed.

Lemma join_version_py (x : string) :
  Str.rstrip posixpath.slash x = x -> x <> "" ->
  posixpath.join x [".."; ".version.py"]
  = (x +:+ "/" +:+ "..") +:+ "/" +:+ ".version.py".
Proof.
  intros Hr Hne. unfold posixpath.join. cbn [fold_left].
  assert (H1 : posixpath.join_step x ".." = x +:+ "/" +:+ "..").
  { unfold posixpath.join_step.
    change (Str.startswith ".." "/") with false. cbv iota.
    rewrite (endswith_fix x Hr Hne).
    apply String.eqb_neq in Hne. by rewrite Hne. }
  rewrite H1. unfold posixpath.join_step.
  change (Str.startswith ".version.py" "/") with false. cbv iota.
  assert (H2 : Str.rstrip posixpath.slash (x +:+ "/" +:+ "..")
               = x +:+ "/" +:+ "..")
    by (by apply rstrip_app_fix).
  assert (H3 : x +:+ "/" +:+ ".." <> "").
  { destruct x; [congruence|]. by rewrite append_cons. }
  rewrite (endswith_fix _ H2 H3).
  apply String.eqb_neq in H3. by rewrite H3.
Qed.

Lemma clean_version_py : clean ".version.py".
Proof. repeat split; (discriminate || reflexivity). Qed.

Lemma clean_first (c : string) :
  clean c -> exists a s, c = String a s /\ a <> posixpath.slash.
Proof.
  intros (Hn & _ & _ & Hs). destruct c as [|a s]; [congruence|].
  exists a, s. split; [reflexivity|]. simpl in Hs.
  apply orb_false_iff in Hs. destruct Hs as [Hs _].
  by apply Ascii.eqb_neq.
Qed.

(** A path of clean components starts with one slash only. *)
Lemma of_comps_one_slash (d : string) (ds : list string) :
  clean d -> Str.startswith (of_comps (d :: ds)) "//" = false.
Proof.
  intros (a & s & -> & Ha)%clean_first.
  assert (Hj : exists t, Str.join "/" (String a s :: ds) = String a t).
  { destruct ds; [by eexists|]. rewrite join_cons by discriminate.
    rewrite append_cons. by eexists. }
  destruct Hj as [t Hj]. rewrite of_comps_cons, Hj.
  unfold Str.startswith. rewrite !prefix_cons.
  destruct (ascii_dec "/" posixpath.slash); [|reflexivity].
  destruct (ascii_dec "/" a) as [<-|]; [|reflexivity].
  by destruct Ha.
Qed.

(** [normpath] of [<dirs>/../.version.py]: the last directory goes. *)
Lemma normpath_version_py (ds : list string) :
  ds <> [] -> Forall clean ds ->
  posixpath.normpath (of_comps (app ds [".."; ".version.py"]))
  = of_comps (app (removelast ds) [".version.py"]).
Proof.
  intros Hne H.
  set (P := of_comps (app ds [".."; ".version.py"])).
  assert (E0 : (P =? "")%string = false) by reflexivity.
  assert (E1 : Str.startswith P "/" = true) by apply isabs_cons.
  assert (E2 : Str.startswith P "//" = false).
  { subst P. destruct ds as [|d ds]; [congruence|].
    apply (of_comps_one_slash d). by inversion H. }
  assert (E3 : Str.split posixpath.slash P
               = "" :: app ds [".."; ".version.py"]).
  { apply split_of_comps; [by destruct ds|].
    apply Forall_app. split; [by apply Forall_clean_without|].
    by repeat constructor. }
  unfold posixpath.normpath. rewrite E0, E1, E2, E3. simpl andb. cbv iota.
  cbn [fold_left].
  change (posixpath.normpath_step 1 [] "") with (@nil string).
  rewrite fold_left_app, (normpath_fold_clean 1 ds []) by assumption.
  rewrite app_nil_l. cbn [fold_left].
  rewrite normpath_step_up by assumption.
  rewrite normpath_step_clean by apply clean_version_py.
  reflexivity.
Qed.

(** ** The version file *)

(** The version file is [.version.py] in the parent of the directory of
    the script. *)
Lemma version_py_location (w : World) (dirs : list string) (script : string) :
  Forall clean (app dirs [script]) ->
  posixpath.abspath (w_cwd w) (w_file w) = of_comps (app dirs [script]) ->
  _version_py w = of_comps (app (removelast dirs) [".version.py"]).
Proof.
  intros Hc Habs. unfold _version_py, curdir. rewrite Habs.
  destruct dirs as [|d ds].
  - change (app [] [script]) with [script] in *.
    rewrite dirname_of_root by (by inversion Hc). vm_compute. reflexivity.
  - rewrite dirname_of_comps by (assumption || discriminate).
    apply Forall_app in Hc. destruct Hc as [Hd _].
    destruct (of_comps_rstrip (d :: ds)) as [Hr Hx]; [discriminate|assumption|].
    rewrite (join_version_py _ Hr Hx).
    rewrite <- (normpath_version_py (d :: ds)) by (assumption || discriminate).
    f_equal.
    change [".."; ".version.py"] with (app [".."] [".version.py"]).
    rewrite (app_assoc (d :: ds)).
    rewrite (of_comps_snoc (app (d :: ds) [".."])) by discriminate.
    rewrite (of_comps_snoc (d :: ds)) by discriminate.
    reflexivity.
Qed.






(** * Further properties of the script *)

(** ** What [find_packages('src')] finds *)

Lemma pkg_chain_nonempty (n : node) (names : list string) (c : node) :
  pkg_chain n names c -> names <> [].
Proof. destruct 1; discriminate. Qed.

(** The walk into the kept sub-directories reaches what is found below
    each of them. *)
Lemma find_under_descend (prefix : string) (es : list (string * node))
    (d : string) (c : node) (p : string) :
  In (d, c) es -> setuptools.kept d c = true ->
  In p (setuptools.find_under (prefix +:+ d +:+ ".") c) ->
  In p (setuptools.find_under prefix (Dir es)).
Proof.
  intros Hin Hk Hp. simpl. apply in_or_app. right.
  induction es as [|[d0 c0] es IH]; [destruct Hin|].
  destruct Hin as [[= -> ->]|Hin]; apply in_or_app.
  - left. rewrite Hk. exact Hp.
  - right. by apply IH.
Qed.

Lemma find_under_complete (n : node) (names : list string) (c : node) :
  pkg_chain n names c ->
  forall prefix,
    setuptools.excluded (prefix +:+ Str.join "." names) = false ->
    In (prefix +:+ Str.join "." names) (setuptools.find_under prefix n).
Proof.
  induction 1 as [es d c Hin Hk|es d c names c' Hin Hk Hc IH];
    intros prefix Hx.
  - simpl. apply in_or_app. left.
    apply in_map_iff. exists (d, c). split; [reflexivity|].
    apply list_elem_of_In, list_elem_of_filter. split.
    + simpl in *. rewrite Hk, Hx. reflexivity.
    + by apply list_elem_of_In.
  - rewrite (join_dot_cons d names (pkg_chain_nonempty _ _ _ Hc)) in *.
    apply (find_under_descend prefix es d c); [assumption..|].
    specialize (IH (prefix +:+ d +:+ ".")).
    rewrite !append_assoc in IH. apply IH. exact Hx.
Qed.

(** What is found in a directory is one of its kept sub-directories, or
    is found below one of them. *)
Lemma find_under_inv (prefix : string) (es : list (string * node)) (p : string) :
  In p (setuptools.find_under prefix (Dir es)) ->
  (exists d c, In (d, c) es /\ setuptools.kept d c = true
               /\ setuptools.excluded (prefix +:+ d) = false
               /\ p = prefix +:+ d)
  \/ (exists d c, In (d, c) es /\ setuptools.kept d c = true
                  /\ In p (setuptools.find_under (prefix +:+ d +:+ ".") c)).
Proof.
  simpl. intros Hin. apply in_app_or in Hin. destruct Hin as [Hin|Hin].
  - left. apply in_map_iff in Hin. destruct Hin as ([d c] & <- & Hin).
    apply list_elem_of_In, list_elem_of_filter in Hin.
    destruct Hin as [Hk Hin]. apply list_elem_of_In in Hin.
    simpl in Hk. apply Is_true_true, andb_true_iff in Hk.
    destruct Hk as [Hk Hx]. apply negb_true_iff in Hx.
    exists d, c. repeat split; assumption.
  - right. induction es as [|[d0 c0] es IH]; [destruct Hin|].
    apply in_app_or in Hin. destruct Hin as [Hin|Hin].
    + destruct (setuptools.kept d0 c0) eqn:Hk; [|destruct Hin].
      exists d0, c0. split; [by left|]. split; assumption.
    + destruct (IH Hin) as (d & c & Hi & Hk & Hp).
      exists d, c. split; [by right|]. split; assumption.
Qed.

Lemma find_under_chain (n : node) :
  forall prefix p, In p (setuptools.find_under prefix n) ->
  exists names c,
    pkg_chain n names c
    /\ p = prefix +:+ Str.join "." names
    /\ setuptools.excluded p = false.
Proof.
  induction n as [r b|es IH] using node_tree_ind; intros prefix p Hin.
  - destruct Hin.
  - apply find_under_inv in Hin.
    destruct Hin as [(d & c & Hi & Hk & Hx & ->)|(d & c & Hi & Hk & Hp)].
    + exists [d], c. split; [by constructor|]. split; [reflexivity|exact Hx].
    + rewrite Forall_forall in IH.
      apply list_elem_of_In in Hi. pose proof (IH _ Hi) as IHc.
      apply list_elem_of_In in Hi. simpl in IHc.
      destruct (IHc _ _ Hp) as (names & c' & Hs & -> & Hx).
      exists (d :: names), c'. split; [by eapply pkg_chain_cons|].
      rewrite (join_dot_cons d names (pkg_chain_nonempty _ _ _ Hs)).
      rewrite !append_assoc in *. split; [reflexivity|exact Hx].
Qed.

Lemma pkg_chain_take (n : node) (names : list string) (c : node) :
  pkg_chain n names c ->
  forall k, (0 < k <= length names)%nat ->
  exists c', pkg_chain n (take k names) c'.
Proof.
  induction 1 as [es d c Hin Hk|es d c names c' Hin Hk Hc IH]; intros k Hlen.
  - simpl in Hlen. replace k with 1%nat by lia. exists c. by constructor.
  - destruct k as [|k]; [lia|]. simpl in Hlen. destruct k as [|k].
    + exists c. simpl. rewrite take_0. by constructor.
    + destruct (IH (S k)) as [c'' Hc'']; [lia|].
      exists c''. simpl. by eapply pkg_chain_cons.
Qed.

(** X1: what [find_packages('src')] of line 31 returns, read off the
    directory tree: a name is returned exactly when it is the dotted path
    of a chain of directories below [src], none with a dot in its name and
    each holding a file [__init__.py], and the name is neither [ez_setup]
    nor ends in [__pycache__]. *)
Theorem X1_packages_exactly (w : World) (p : string) :
  In p (setuptools.find_packages w "src")
  <-> exists src names c,
        resolve (w_fs w) (w_cwd w) "src" = inr src
        /\ pkg_chain src names c
        /\ p = Str.join "." names
        /\ setuptools.excluded p = false.
Proof.
  unfold setuptools.find_packages. split.
  - destruct (resolve (w_fs w) (w_cwd w) "src") as [e|src]; [intros []|].
    intros Hin. destruct (find_under_chain src "" p Hin) as (names & c & H).
    exists src, names, c. split; [reflexivity|exact H].
  - intros (src & names & c & -> & Hc & -> & Hx).
    apply (find_under_complete src names c Hc ""). exact Hx.
Qed.

Lemma X1_packages_exactly_witness :
  exists src names c,
    resolve (w_fs Sample.w321) (w_cwd Sample.w321) "src" = inr src
    /\ pkg_chain src names c
    /\ "zato.cache" = Str.join "." names
    /\ setuptools.excluded "zato.cache" = false.
Proof.
  apply (proj1 (X1_packages_exactly Sample.w321 "zato.cache")).
  vm_compute. right. left. reflexivity.
Defined.

Lemma split_join_sep (c : ascii) (cs : list string) :
  cs <> [] ->
  Forall (fun d => Str.contains c d = false) cs ->
  Str.split c (Str.join (String c "") cs) = cs.
Proof.
  intros Hne H. induction H as [|d cs Hd H IH]; [congruence|].
  destruct cs as [|d' cs].
  - by apply split_without.
  - rewrite join_cons by discriminate.
    change (String c "" +:+ Str.join (String c "") (d' :: cs))
      with (String c (Str.join (String c "") (d' :: cs))).
    rewrite split_app, (split_without _ _ Hd), IH by discriminate.
    reflexivity.
Qed.

(** The names along a chain of package directories have no dot. *)
Lemma pkg_chain_nodot (n : node) (names : list string) (c : node) :
  pkg_chain n names c ->
  Forall (fun d => Str.contains "."%char d = false) names.
Proof.
  assert (Hk : forall d c0, setuptools.kept d c0 = true ->
                            Str.contains "."%char d = false).
  { intros d c0 [H _]%andb_true_iff. by apply negb_true_iff in H. }
  induction 1; constructor; eauto.
Qed.

(** The components of a package that was found are the names along its
    chain of directories. *)
Lemma find_packages_split (w : World) (p : string) :
  In p (setuptools.find_packages w "src") ->
  exists src c,
    resolve (w_fs w) (w_cwd w) "src" = inr src
    /\ pkg_chain src (Str.split "."%char p) c.
Proof.
  unfold setuptools.find_packages.
  destruct (resolve (w_fs w) (w_cwd w) "src") as [e|src]; [intros []|].
  intros Hin.
  destruct (find_under_chain src "" p Hin) as (names & c & Hc & -> & _).
  exists src, c. split; [reflexivity|].
  rewrite append_nil_l.
  rewrite (split_join_sep "."%char names);
    [exact Hc|by eapply pkg_chain_nonempty|by eapply pkg_chain_nodot].
Qed.

(** X2: the packages of line 31 are closed under parents, up to the
    exclusion filter: for a package that is found, [a.b.c] say, each name
    made of its first components, [a] and [a.b], is found too unless it is
    [ez_setup] or ends in [__pycache__]; so a sub-package of [zato] is
    never registered without [zato], the namespace package of line 32. *)
Theorem X2_packages_parent_closed (w : World) (p : string) :
  In p (setuptools.find_packages w "src") ->
  forall k, (0 < k <= length (Str.split "."%char p))%nat ->
    setuptools.excluded (Str.join "." (take k (Str.split "."%char p))) = false ->
    In (Str.join "." (take k (Str.split "."%char p)))
       (setuptools.find_packages w "src").
Proof.
  intros Hin k Hk Hx.
  destruct (find_packages_split w p Hin) as (src & c & Hr & Hc).
  destruct (pkg_chain_take src _ c Hc k Hk) as [c' Hc'].
  unfold setuptools.find_packages. rewrite Hr.
  apply (find_under_complete src _ c' Hc' ""). exact Hx.
Qed.

Lemma X2_packages_parent_closed_witness :
  In "zato" (setuptools.find_packages Sample.w321 "src").
Proof.
  assert (Hin : In "zato.cache" (setuptools.find_packages Sample.w321 "src")).
  { vm_compute. right. left. reflexivity. }
  assert (Hk : (0 < 1 <= length (Str.split "."%char "zato.cache"))%nat).
  { vm_compute. lia. }
  exact (X2_packages_parent_closed Sample.w321 "zato.cache" Hin 1 Hk eq_refl).
Defined.

(** X3: the script does not check the [src] directory: when there is no
    directory [src] in the working directory, a run with a well-formed
    version file still calls [setup], with an empty [packages] and with
    [zato] declared as namespace package all the same, and ends as that
    call does. *)
Theorem X3_missing_src (w : World) (v : value) :
  imports_ok w = true ->
  version_file w = VF_defines v ->
  (forall es, resolve (w_fs w) (w_cwd w) "src" <> inr (Dir es)) ->
  exists m, registered (trace (setup_py w)) = Some m
    /\ m !! "packages" = Some (VList [])
    /\ m !! "namespace_packages" = Some (VList [VStr "zato"])
    /\ result (setup_py w) = w_setup w (w_argv w) m.
Proof.
  intros Hi Hv Hs. exists (metadata w v).
  assert (Hp : setuptools.find_packages w "src" = []).
  { unfold setuptools.find_packages.
    destruct (resolve (w_fs w) (w_cwd w) "src") as [e|[r b|es]];
      [reflexivity|reflexivity|]. by destruct (Hs es). }
  split; [by apply registered_defines|].
  split; [unfold metadata; rewrite Hp; reflexivity|].
  split; [reflexivity|].
  apply result_registered. by apply registered_defines.
Qed.

Lemma X3_missing_src_witness :
  exists m, registered (trace (setup_py (with_cwd Sample.w_abs "/tmp"))) = Some m
    /\ m !! "packages" = Some (VList [])
    /\ m !! "namespace_packages" = Some (VList [VStr "zato"])
    /\ result (setup_py (with_cwd Sample.w_abs "/tmp")) = inr tt.
Proof.
  assert (Hs : forall es,
             resolve (w_fs (with_cwd Sample.w_abs "/tmp"))
               (w_cwd (with_cwd Sample.w_abs "/tmp")) "src" <> inr (Dir es)).
  { intros es H. vm_compute in H. discriminate H. }
  destruct (X3_missing_src (with_cwd Sample.w_abs "/tmp") (VStr "3.2.1")
              eq_refl eq_refl Hs) as (m & Hr & Hp & Hn & Hres).
  exists m. split; [exact Hr|]. split; [exact Hp|]. split; [exact Hn|].
  rewrite Hres. reflexivity.
Defined.

(** ** Exit status of the failures *)

(** X4: the failures of the script's own steps all end the run with
    status 1: when nothing is registered and the exception is not one the
    code of the version file raised, the exit status is 1. *)
Theorem X4_own_failures_exit_1 (w : World) :
  registered (trace (setup_py w)) = None ->
  (imports_ok w = true -> forall e, version_file w <> VF_raises e) ->
  exit_status (result (setup_py w)) = 1.
Proof.
  rewrite registered_run, setup_py_run.
  destruct (imports_ok w); [|reflexivity].
  destruct (version_file w) as [n|n|e| |v]; intros Hr Hv;
    try reflexivity; try discriminate.
  by destruct (Hv eq_refl e).
Qed.

Lemma X4_own_failures_exit_1_witness :
  exit_status (result (setup_py Sample.w_no_version_file)) = 1
  /\ exit_status (result (setup_py Sample.w_unbound)) = 1
  /\ exit_status (result (setup_py Sample.w_no_cython)) = 1.
Proof.
  split; [|split].
  - apply X4_own_failures_exit_1.
    + vm_compute. reflexivity.
    + intros _ e H. vm_compute in H. discriminate H.
  - apply X4_own_failures_exit_1.
    + vm_compute. reflexivity.
    + intros _ e H. vm_compute in H. discriminate H.
  - apply X4_own_failures_exit_1.
    + vm_compute. reflexivity.
    + intros H. vm_compute in H. discriminate H.
Defined.

(** X5: an exception of the code of the version file ends the run as it
    is: nothing is registered, [find_packages] and [setup] are not called,
    and the exit status is that of the exception; a version file that
    leaves with [SystemExit(0)] makes the run end with status 0 although
    no metadata was registered. *)
Theorem X5_version_file_raises (w : World) (e : exn) :
  imports_ok w = true ->
  version_file w = VF_raises e ->
  result (setup_py w) = inl e
  /\ trace (setup_py w) = [ev_execfile w]
  /\ registered (trace (setup_py w)) = None
  /\ exit_status (result (setup_py w)) = exit_status (inl e).
Proof.
  intros Hi Hv. rewrite registered_run, setup_py_run, Hi, Hv.
  repeat split; reflexivity.
Qed.

Lemma X5_version_file_raises_witness :
  exit_status (result (setup_py Sample.w_exit0)) = 0
  /\ registered (trace (setup_py Sample.w_exit0)) = None.
Proof.
  destruct (X5_version_file_raises Sample.w_exit0 (SystemExit (VInt 0))
              eq_refl eq_refl) as (_ & _ & Hr & Hx).
  split; [rewrite Hx; reflexivity|exact Hr].
Defined.

(** ** The path handed to [execfile] *)

Lemma endswith_snoc (x : string) : Str.endswith (x +:+ "/") "/" = true.
Proof.
  induction x as [|a x IH]; [reflexivity|].
  rewrite append_cons. simpl Str.endswith. rewrite IH. apply orb_true_r.
Qed.

Lemma append_nonempty_r (x y : string) : y <> "" -> x +:+ y <> "".
Proof.
  intros Hy. destruct x; [by rewrite append_nil_l|].
  by rewrite append_cons.
Qed.

Lemma join_snoc (sep : string) (l : list string) (v : string) :
  Str.join sep (app l [v])
  = (match l with [] => "" | _ => Str.join sep l +:+ sep end) +:+ v.
Proof.
  destruct l as [|d l]; [reflexivity|].
  rewrite join_app by discriminate. simpl Str.join at 2.
  by rewrite append_assoc.
Qed.

(** [join(curdir, '..', '.version.py')] ends in [/.version.py], whatever
    [curdir] is. *)
Lemma join_version_py_any (c : string) :
  exists p, posixpath.join c [".."; ".version.py"]
            = p +:+ String posixpath.slash ".version.py".
Proof.
  unfold posixpath.join. cbn [fold_left].
  assert (Hq : exists q, posixpath.join_step c ".." = q +:+ "..").
  { unfold posixpath.join_step.
    change (Str.startswith ".." "/") with false. cbv iota.
    destruct (_ || _); [by exists c|].
    exists (c +:+ "/"). by rewrite append_assoc. }
  destruct Hq as [q ->]. exists (q +:+ "..").
  unfold posixpath.join_step.
  change (Str.startswith ".version.py" "/") with false. cbv iota.
  assert (H1 : Str.rstrip posixpath.slash (q +:+ "..") = q +:+ "..")
    by (by apply rstrip_app_fix).
  assert (H2 : q +:+ ".." <> "") by (by apply append_nonempty_r).
  rewrite (endswith_fix _ H1 H2).
  apply String.eqb_neq in H2. rewrite H2. reflexivity.
Qed.

(** X6: whatever [__file__] and the working directory are, the path of
    lines 16 and 17 names a file called [.version.py]: it is
    [.version.py] itself or ends in [/.version.py]. *)
Theorem X6_version_py_name (w : World) :
  exists y, _version_py w = y +:+ ".version.py"
            /\ (y = "" \/ Str.endswith y "/" = true).
Proof.
  unfold _version_py.
  destruct (join_version_py_any (curdir w)) as [p ->].
  unfold posixpath.normpath.
  assert (E0 : (p +:+ String posixpath.slash ".version.py" =? "")%string
               = false).
  { apply String.eqb_neq. by apply append_nonempty_r. }
  rewrite E0, split_app, (split_without posixpath.slash ".version.py")
    by reflexivity.
  set (n := if Str.startswith _ "/" then _ else _).
  rewrite fold_left_app. cbn [fold_left].
  rewrite normpath_step_clean by apply clean_version_py.
  set (L := fold_left _ _ _).
  rewrite join_snoc, <- append_assoc.
  set (y := Str.repeat_char posixpath.slash n +:+ _).
  assert (E1 : (y +:+ ".version.py" =? "")%string = false).
  { apply String.eqb_neq. by apply append_nonempty_r. }
  rewrite E1. exists y. split; [reflexivity|].
  subst y. destruct L as [|d L].
  - subst n. destruct (Str.startswith _ "/"); [|by left].
    destruct (_ && _); by right.
  - right. rewrite <- append_assoc. apply endswith_snoc.
Qed.

(** [abspath] is absolute as soon as the working directory is. *)
Lemma abspath_isabs (cwd path : string) :
  posixpath.isabs cwd = true \/ posixpath.isabs path = true ->
  posixpath.isabs (posixpath.abspath cwd path) = true.
Proof.
  intros H. unfold posixpath.abspath. apply normpath_isabs.
  destruct (posixpath.isabs path) eqn:E; [exact E|].
  destruct H as [H|H]; [|discriminate].
  unfold posixpath.join. cbn [fold_left]. by apply join_step_isabs.
Qed.

(** X7: the path handed to [execfile] is absolute whenever the working
    directory is an absolute path, as [os.getcwd()] always is, or
    [__file__] is: the file that is executed does not depend on how
    [execfile] resolves relative paths. *)
Theorem X7_version_py_absolute (w : World) :
  posixpath.isabs (w_cwd w) = true \/ posixpath.isabs (w_file w) = true ->
  posixpath.isabs (_version_py w) = true.
Proof.
  intros H. apply version_py_isabs. unfold curdir.
  by apply dirname_isabs, abspath_isabs.
Qed.

Lemma X7_version_py_absolute_witness :
  posixpath.isabs (_version_py Sample.w321) = true.
Proof.
  apply (X7_version_py_absolute Sample.w321). left. reflexivity.
Defined.

(** ** Where the version file is, by the way the script is started *)

(** [normpath] leaves an absolute path of clean components as it is. *)
Lemma normpath_clean (cs : list string) :
  cs <> [] -> Forall clean cs ->
  posixpath.normpath (of_comps cs) = of_comps cs.
Proof.
  intros Hne H.
  set (P := of_comps cs).
  assert (E0 : (P =? "")%string = false) by reflexivity.
  assert (E1 : Str.startswith P "/" = true) by apply isabs_cons.
  assert (E2 : Str.startswith P "//" = false).
  { subst P. destruct cs as [|d ds]; [congruence|].
    apply (of_comps_one_slash d). by inversion H. }
  assert (E3 : Str.split posixpath.slash P = "" :: cs).
  { apply split_of_comps; [assumption|]. by apply Forall_clean_without. }
  unfold posixpath.normpath. rewrite E0, E1, E2, E3. simpl andb. cbv iota.
  cbn [fold_left].
  change (posixpath.normpath_step 1 [] "") with (@nil string).
  rewrite normpath_fold_clean by assumption. reflexivity.
Qed.

Lemma isabs_join_clean (c : string) (cs : list string) :
  clean c -> posixpath.isabs (Str.join "/" (c :: cs)) = false.
Proof.
  intros (a & s & -> & Ha)%clean_first.
  assert (Hj : exists t, Str.join "/" (String a s :: cs) = String a t).
  { destruct cs; [by eexists|]. rewrite join_cons by discriminate.
    rewrite append_cons. by eexists. }
  destruct Hj as [t ->]. unfold posixpath.isabs, Str.startswith.
  rewrite prefix_cons. destruct (ascii_dec "/" a) as [<-|]; [|reflexivity].
  by destruct Ha.
Qed.

(** [abspath] of a relative path of clean components, from a working
    directory of clean components. *)
Lemma abspath_relative (dirs rel : list string) :
  rel <> [] -> Forall clean (app dirs rel) ->
  posixpath.abspath (of_comps dirs) (Str.join "/" rel) = of_comps (app dirs rel).
Proof.
  intros Hne H. unfold posixpath.abspath.
  destruct rel as [|r rel]; [congruence|].
  assert (Hr : clean r).
  { apply Forall_app in H. destruct H as [_ H]. by inversion H. }
  rewrite (isabs_join_clean r rel Hr).
  rewrite <- (normpath_clean (app dirs (r :: rel))) by (assumption || by destruct dirs).
  f_equal. unfold posixpath.join. cbn [fold_left]. unfold posixpath.join_step.
  change (Str.startswith (Str.join "/" (r :: rel)) "/")
    with (posixpath.isabs (Str.join "/" (r :: rel))).
  rewrite (isabs_join_clean r rel Hr).
  destruct dirs as [|d ds]; [reflexivity|].
  apply Forall_app in H. destruct H as [Hd _].
  destruct (of_comps_rstrip (d :: ds)) as [Hs Hx]; [discriminate|assumption|].
  rewrite (endswith_fix _ Hs Hx).
  apply String.eqb_neq in Hx. rewrite Hx. simpl orb. cbv iota.
  unfold of_comps. rewrite (join_app "/" (d :: ds) (r :: rel)) by discriminate.
  by rewrite !append_assoc.
Qed.

(** X8: for [python dir/.../setup.py] started in a directory [/d1/.../dn]
    (the usual [python setup.py] has no [dir/...]), the script being
    named by a relative path without [.], [..] or empty components, the
    version file is [.version.py] in the parent of the directory of the
    script; started in [/], it is [/.version.py]. *)
Theorem X8_relative_invocation
    (w : World) (dirs rel : list string) (script : string) :
  Forall clean (app dirs (app rel [script])) ->
  w_cwd w = of_comps dirs ->
  w_file w = Str.join "/" (app rel [script]) ->
  _version_py w = of_comps (app (removelast (app dirs rel)) [".version.py"]).
Proof.
  intros Hc Hcwd Hfile.
  apply (version_py_location w (app dirs rel) script).
  - by rewrite <- app_assoc.
  - rewrite Hcwd, Hfile, <- app_assoc.
    apply abspath_relative; [by destruct rel|assumption].
Qed.

Lemma X8_relative_invocation_witness :
  _version_py Sample.w321 = "/opt/zato/code/.version.py".
Proof.
  assert (Hc : Forall clean
                 (app ["opt"; "zato"; "code"; "zato-cache"]
                      (app [] ["setup.py"]))).
  { repeat constructor; discriminate. }
  rewrite (X8_relative_invocation Sample.w321
             ["opt"; "zato"; "code"; "zato-cache"] [] "setup.py"
             Hc eq_refl eq_refl).
  reflexivity.
Defined.

(** X9: for a script started by its absolute path [/d1/.../dn/script],
    without [.], [..] or empty components, the version file is
    [/d1/.../d(n-1)/.version.py] from every working directory. *)
Theorem X9_absolute_invocation
    (w : World) (dirs : list string) (script : string) :
  Forall clean (app dirs [script]) ->
  w_file w = of_comps (app dirs [script]) ->
  _version_py w = of_comps (app (removelast dirs) [".version.py"]).
Proof.
  intros Hc Hfile.
  apply (version_py_location w dirs script Hc).
  unfold posixpath.abspath. rewrite Hfile.
  rewrite (of_comps_cons (app dirs [script])) at 1. rewrite isabs_cons.
  apply normpath_clean; [by destruct dirs|assumption].
Qed.

Lemma X9_absolute_invocation_witness :
  _version_py (with_cwd Sample.w_abs "/tmp") = "/opt/zato/code/.version.py".
Proof.
  assert (Hc : Forall clean
                 (app ["opt"; "zato"; "code"; "zato-cache"] ["setup.py"])).
  { repeat constructor; discriminate. }
  rewrite (X9_absolute_invocation (with_cwd Sample.w_abs "/tmp")
             ["opt"; "zato"; "code"; "zato-cache"] "setup.py" Hc eq_refl).
  reflexivity.
Defined.
